(** * cibuildwheel/docker_container.py : the DockerContainer class

    A shallow embedding of [DockerContainer] and of the framing protocol of
    [DockerContainer.call]: a subshell script is written to a persistent bash,
    and the output is read line by line until a footer line
    [<4-digit returncode><uuid>\n] shows up.

    Python [str] is modelled as [list ascii], [int] as [Z], a [dict] as an
    association list in insertion order (the order of [env.items()]).
    Everything outside the Python process (the remote bash, the docker CLI,
    the host file system, the random source behind [uuid.uuid4]) is a field of
    the [World] record that every method threads through.

    [glob] and [get_environment] are [call] with [capture_output=True]
    followed by [json.loads]; they are not part of this development. *)

From Stdlib Require Import List ZArith NArith Lia Bool Ascii String DecimalString.
Import ListNotations.

Set Implicit Arguments.

Local Open Scope Z_scope.

(** ** Python strings *)

Module Py.

Definition str : Set := list ascii.

(** A literal: [lit "abc"] is the Python string ['abc']. *)
Definition lit (s : string) : str := list_ascii_of_string s.

Definition newline : ascii := ascii_of_nat 10.
Definition tab : ascii := ascii_of_nat 9.
Definition vtab : ascii := ascii_of_nat 11.
Definition formfeed : ascii := ascii_of_nat 12.
Definition cr : ascii := ascii_of_nat 13.
Definition dquote : ascii := ascii_of_nat 34.
Definition squote : ascii := ascii_of_nat 39.
Definition backslash : ascii := ascii_of_nat 92.

Definition len (s : str) : Z := Z.of_nat (List.length s).

Fixpoint str_eqb (a b : str) : bool :=
  match a, b with
  | [], [] => true
  | x :: a', y :: b' => Ascii.eqb x y && str_eqb a' b'
  | _, _ => false
  end.

(** [s[i:j]] for integer bounds: a negative bound counts from the end, both
    bounds are clamped to [0, len(s)], and an empty range gives [''] *)
Definition slice_bound (n i : Z) : Z :=
  if i <? 0 then Z.max 0 (n + i) else Z.min i n.

Definition slice (s : str) (i j : Z) : str :=
  let lo := slice_bound (len s) i in
  let hi := slice_bound (len s) j in
  firstn (Z.to_nat (hi - lo)) (skipn (Z.to_nat lo) s).

(** [s.endswith(suffix)] *)
Definition endswith (s suffix : str) : bool :=
  (List.length suffix <=? List.length s)%nat
  && str_eqb (skipn (List.length s - List.length suffix) s) suffix.

(** [sep.join(parts)] *)
Fixpoint join (sep : str) (parts : list str) : str :=
  match parts with
  | [] => []
  | [p] => p
  | p :: rest => p ++ sep ++ join sep rest
  end.

(** [s.replace(old, new)] for a one-character [old] *)
Definition replace_char (old : ascii) (new : str) (s : str) : str :=
  flat_map (fun c => if Ascii.eqb c old then new else [c]) s.

(** *** [int(s)] on a [str]

    Surrounding whitespace is dropped, one sign is allowed, then decimal digits
    that single underscores may separate. [None] stands for [ValueError].
    Characters are the ASCII ones. *)
Definition isspace (c : ascii) : bool :=
  Ascii.eqb c " " || Ascii.eqb c tab || Ascii.eqb c newline
  || Ascii.eqb c vtab || Ascii.eqb c formfeed || Ascii.eqb c cr.

Definition digit_of (c : ascii) : option Z :=
  let n := Z.of_nat (nat_of_ascii c) in
  if (48 <=? n) && (n <=? 57) then Some (n - 48) else None.

(** [s.isdigit()] on the ASCII range, for a non-empty [s] *)
Definition isdigit (s : str) : bool :=
  forallb (fun c => match digit_of c with Some _ => true | None => false end) s.

Fixpoint lstrip (s : str) : str :=
  match s with
  | c :: r => if isspace c then lstrip r else s
  | [] => []
  end.

Definition strip (s : str) : str := rev (lstrip (rev (lstrip s))).

Fixpoint digits_value (acc : Z) (after_digit : bool) (s : str) : option Z :=
  match s with
  | [] => if after_digit then Some acc else None
  | c :: r =>
      match digit_of c with
      | Some d => digits_value (10 * acc + d) true r
      | None =>
          if Ascii.eqb c "_" && after_digit then digits_value acc false r
          else None
      end
  end.

Definition int (s : str) : option Z :=
  match strip s with
  | c :: r =>
      if Ascii.eqb c "-" then option_map Z.opp (digits_value 0 false r)
      else if Ascii.eqb c "+" then digits_value 0 false r
      else digits_value 0 false (c :: r)
  | [] => None
  end.

End Py.

Import Py.

(** ** The [uuid] module: [uuid.uuid4()] and [str(UUID)] *)

Module Uuid.

Definition hexdigit (d : N) : ascii :=
  nth (N.to_nat d) (lit "0123456789abcdef") "0"%char.

(** ['%0<width>x' % n], for [n < 16 ^ width] *)
Fixpoint hex (width : nat) (n : N) : str :=
  match width with
  | O => []
  | S w => hex w (N.div n 16) ++ [hexdigit (N.modulo n 16)]
  end.

(** [UUID(bytes=os.urandom(16), version=4).int]: sixteen random bytes with the
    RFC 4122 variant and the version number 4 stamped in *)
Definition uuid4 (random : N) : N :=
  let i := N.modulo random (2 ^ 128) in
  let i := N.ldiff i (N.shiftl 49152 48) in
  let i := N.lor i (N.shiftl 32768 48) in
  let i := N.ldiff i (N.shiftl 61440 64) in
  N.lor i (N.shiftl 4 76).

(** [str(u)]: the 8-4-4-4-12 form *)
Definition to_str (u : N) : str :=
  let h := hex 32 u in
  slice h 0 8 ++ lit "-" ++ slice h 8 12 ++ lit "-" ++ slice h 12 16
  ++ lit "-" ++ slice h 16 20 ++ lit "-" ++ slice h 20 32.

End Uuid.

(** ** The [shlex] module *)

Module Shlex.

(** [\w] under [re.ASCII], and the other characters [quote] leaves alone:
    the complement of [_find_unsafe = [^\w@%+=:,./-]] *)
Definition is_safe (c : ascii) : bool :=
  let n := nat_of_ascii c in
  ((48 <=? n) && (n <=? 57) || (65 <=? n) && (n <=? 90)
   || (97 <=? n) && (n <=? 122))%nat
  || existsb (Ascii.eqb c) (lit "_@%+=:,./-").

(** [shlex.quote(s)] *)
Definition quote (s : str) : str :=
  match s with
  | [] => [squote; squote]
  | _ =>
      if forallb is_safe s then s
      else [squote]
           ++ replace_char squote [squote; dquote; squote; dquote; squote] s
           ++ [squote]
  end.

(** The lexer of [shlex.split(s)] ([posix=True], [whitespace_split=True], no
    commenters). [self.state] is [' '] ([Blank]), ['a'] ([Word]), a quote
    character, or the escape character, in which case [escapedstate] says
    where to return: to ['a'] ([None]) or into the quote ([Some q]). *)
Inductive state :=
| Blank
| Word
| Quoted (q : ascii)
| Escape (escapedstate : option ascii).

Definition whitespace (c : ascii) : bool :=
  Ascii.eqb c " " || Ascii.eqb c tab || Ascii.eqb c cr || Ascii.eqb c newline.
Definition quotes (c : ascii) : bool := Ascii.eqb c squote || Ascii.eqb c dquote.
Definition escape (c : ascii) : bool := Ascii.eqb c backslash.
Definition escapedquotes (c : ascii) : bool := Ascii.eqb c dquote.

(** All calls of [read_token] in a row: [token] is [self.token], the result is
    the list of tokens, or [None] for the [ValueError] of an open quotation or
    of a trailing escape character. In [Blank] the token is empty and not
    quoted, so only the other states emit one. *)
Fixpoint read_tokens (st : state) (token : str) (instream : str)
  : option (list str) :=
  match instream with
  | [] =>
      match st with
      | Blank => Some []
      | Word => Some [token]
      | Quoted _ | Escape _ => None
      end
  | nextchar :: rest =>
      match st with
      | Blank =>
          if whitespace nextchar then read_tokens Blank [] rest
          else if escape nextchar then read_tokens (Escape None) [] rest
          else if quotes nextchar then read_tokens (Quoted nextchar) [] rest
          else read_tokens Word [nextchar] rest
      | Quoted q =>
          if Ascii.eqb nextchar q then read_tokens Word token rest
          else if escape nextchar && escapedquotes q
               then read_tokens (Escape (Some q)) token rest
          else read_tokens (Quoted q) (token ++ [nextchar]) rest
      | Escape escapedstate =>
          match escapedstate with
          | Some q =>
              if negb (escape nextchar) && negb (Ascii.eqb nextchar q)
              then read_tokens (Quoted q) (token ++ [backslash; nextchar]) rest
              else read_tokens (Quoted q) (token ++ [nextchar]) rest
          | None => read_tokens Word (token ++ [nextchar]) rest
          end
      | Word =>
          if whitespace nextchar
          then option_map (cons token) (read_tokens Blank [] rest)
          else if quotes nextchar then read_tokens (Quoted nextchar) token rest
          else if escape nextchar then read_tokens (Escape None) token rest
          else read_tokens Word (token ++ [nextchar]) rest
      end
  end.

Definition split (s : str) : option (list str) := read_tokens Blank [] s.

End Shlex.

(** ** Paths: [pathlib.PurePath] and [pathlib.Path] *)

(** A path is its anchor ([/] or the current directory) and the names below
    it; [p.parent] of an anchor is the anchor itself. *)
Inductive PurePath :=
| Root
| Dot
| Child (parent : PurePath) (name : str).

Definition Path := PurePath.

Definition parent (p : PurePath) : PurePath :=
  match p with
  | Child q _ => q
  | _ => p
  end.

(** [str(p)] *)
Fixpoint path_str (p : PurePath) : str :=
  match p with
  | Root => lit "/"
  | Dot => lit "."
  | Child Root n => lit "/" ++ n
  | Child Dot n => n
  | Child q n => path_str q ++ lit "/" ++ n
  end.

Fixpoint path_eqb (p q : PurePath) : bool :=
  match p, q with
  | Root, Root => true
  | Dot, Dot => true
  | Child p' n, Child q' m => str_eqb n m && path_eqb p' q'
  | _, _ => false
  end.

(** An element of an argument vector: [Union[str, PathLike]] *)
Inductive arg :=
| AStr (s : str)
| APath (p : PurePath).

(** [str(a)] *)
Definition arg_str (a : arg) : str :=
  match a with
  | AStr s => s
  | APath p => path_str p
  end.

(** Truth value of an optional [cwd]: [None] and [''] are false *)
Definition truthy (cwd : option arg) : bool :=
  match cwd with
  | None | Some (AStr []) => false
  | Some _ => true
  end.

(** ** The world outside the Python process *)

Inductive node := File | Dir.

(** What [subprocess] is asked to run: an argument vector, or one line for
    [/bin/sh -c] when [shell=True] *)
Inductive cmdline :=
| Argv (argv : list arg)
| ShellLine (line : str).

Inductive exn :=
| CalledProcessError (returncode : Z) (cmd : cmdline) (output : option str)
| ValueError
| TypeError
| FileExistsError (p : Path)
| FileNotFoundError (p : Path)
| NotADirectoryError (p : Path).

(** The externally visible actions, in the order they happen *)
Inductive event :=
| Run (cmd : cmdline) (shell check : bool) (cwd : option Path)
| Popen (cmd : cmdline) (bufsize : Z)
| StdinWrite (text : str)
| StdinFlush
| StdinClose
| Terminate
| Wait.

Record World := mkWorld {
  (** successive results of [os.urandom(16)], and how many were drawn *)
  urandom : nat -> N;
  drawn : nat;
  (** what [self.bash_stdout.readline()] is going to return, line by line;
      once exhausted, [readline] returns [''] (end of file) *)
  bash_stdout : list str;
  (** everything written to [sys.stdout] so far *)
  sys_stdout : str;
  (** directories and files on the host *)
  host_fs : list (Path * node);
  (** the status an external command exits with *)
  exit_status : cmdline -> Z;
  (** the actions so far, oldest first *)
  trace : list event
}.

Definition set_drawn (n : nat) (w : World) : World :=
  mkWorld (urandom w) n (bash_stdout w) (sys_stdout w) (host_fs w)
          (exit_status w) (trace w).
Definition set_bash_stdout (l : list str) (w : World) : World :=
  mkWorld (urandom w) (drawn w) l (sys_stdout w) (host_fs w)
          (exit_status w) (trace w).
Definition set_sys_stdout (s : str) (w : World) : World :=
  mkWorld (urandom w) (drawn w) (bash_stdout w) s (host_fs w)
          (exit_status w) (trace w).
Definition set_host_fs (fs : list (Path * node)) (w : World) : World :=
  mkWorld (urandom w) (drawn w) (bash_stdout w) (sys_stdout w) fs
          (exit_status w) (trace w).
Definition emit (e : event) (w : World) : World :=
  mkWorld (urandom w) (drawn w) (bash_stdout w) (sys_stdout w) (host_fs w)
          (exit_status w) (trace w ++ [e]).

(** ** Computations: return, raise, or never come back *)

Inductive outcome (A : Type) :=
| Returned (a : A) (w : World)
| Raised (e : exn) (w : World)
| Blocked (w : World).

Arguments Returned {A} a w.
Arguments Raised {A} e w.
Arguments Blocked {A} w.

Definition M (A : Type) : Type := World -> outcome A.

Definition ret {A} (a : A) : M A := fun w => Returned a w.
Definition raise {A} (e : exn) : M A := fun w => Raised e w.
Definition bind {A B} (c : M A) (k : A -> M B) : M B :=
  fun w =>
    match c w with
    | Returned a w' => k a w'
    | Raised e w' => Raised e w'
    | Blocked w' => Blocked w'
    end.
Definition act (f : World -> World) : M unit := fun w => Returned tt (f w).

Notation "x <- c ;; k" := (bind c (fun x => k))
  (at level 61, c at next level, right associativity).
Notation "c ;;; k" := (bind c (fun _ => k))
  (at level 61, right associativity).

(** *** The host file system *)

Fixpoint lookup (fs : list (Path * node)) (p : Path) : option node :=
  match fs with
  | [] => None
  | (q, n) :: rest => if path_eqb q p then Some n else lookup rest p
  end.

(** [p.is_dir()] *)
Definition is_dir (fs : list (Path * node)) (p : Path) : bool :=
  match lookup fs p with
  | Some Dir => true
  | _ => false
  end.

(** [os.mkdir(p)]: one directory, below an existing directory *)
Definition os_mkdir (p : Path) (fs : list (Path * node))
  : exn + list (Path * node) :=
  match lookup fs p with
  | Some _ => inl (FileExistsError p)
  | None =>
      match lookup fs (parent p) with
      | Some Dir => inr ((p, Dir) :: fs)
      | Some File => inl (NotADirectoryError p)
      | None => inl (FileNotFoundError p)
      end
  end.

(** [Path.mkdir(parents=False, exist_ok)]: an [OSError] is swallowed only when
    [exist_ok] is set and the path is a directory *)
Definition mkdir_flat (p : Path) (exist_ok : bool) (fs : list (Path * node))
  : exn + list (Path * node) :=
  match os_mkdir p fs with
  | inr fs' => inr fs'
  | inl e => if negb exist_ok || negb (is_dir fs p) then inl e else inr fs
  end.

(** [Path.mkdir(parents, exist_ok)]: on [FileNotFoundError], with [parents]
    set and a parent other than the path itself, the parent is made first with
    [parents=True, exist_ok=True], then the path with [parents=False] *)
Fixpoint mkdir (p : Path) (parents exist_ok : bool) (fs : list (Path * node))
  : exn + list (Path * node) :=
  match os_mkdir p fs with
  | inr fs' => inr fs'
  | inl (FileNotFoundError q) =>
      match p with
      | Child up _ =>
          if parents then
            match mkdir up true true fs with
            | inl e => inl e
            | inr fs1 => mkdir_flat p exist_ok fs1
            end
          else inl (FileNotFoundError q)
      | _ => inl (FileNotFoundError q)
      end
  | inl e => if negb exist_ok || negb (is_dir fs p) then inl e else inr fs
  end.

Definition path_mkdir (p : Path) (parents exist_ok : bool) : M unit :=
  fun w =>
    match mkdir p parents exist_ok (host_fs w) with
    | inl e => Raised e w
    | inr fs => Returned tt (set_host_fs fs w)
    end.

(** *** [subprocess.run(cmd, shell=..., check=..., cwd=...)]

    The child cannot start in a [cwd] that is not a directory. Otherwise the
    command runs to its end; with [check] a non-zero status is raised as
    [CalledProcessError], without it the status is handed back. What the
    command itself does to the world is not tracked. *)
Definition enter_cwd (cwd : option Path) : M unit :=
  fun w =>
    match cwd with
    | Some d =>
        match lookup (host_fs w) d with
        | Some Dir => Returned tt w
        | Some File => Raised (NotADirectoryError d) w
        | None => Raised (FileNotFoundError d) w
        end
    | None => Returned tt w
    end.

Definition subprocess_run (cmd : cmdline) (shell check : bool)
  (cwd : option Path) : M Z :=
  enter_cwd cwd ;;;
  act (emit (Run cmd shell check cwd)) ;;;
  fun w =>
    let returncode := exit_status w cmd in
    if check && negb (returncode =? 0)
    then Raised (CalledProcessError returncode cmd None) w
    else Returned returncode w.

(** ** class DockerContainer *)

Record DockerContainer := mkContainer {
  docker_image : str;
  (** [None] before [__enter__] and after [__exit__] *)
  container_name : option str
}.

(** [f'{x}'] for an optional string *)
Definition fmt (x : option str) : str :=
  match x with
  | Some s => s
  | None => lit "None"
  end.

(** [str(uuid.uuid4())] *)
Definition uuid4_str : M str :=
  fun w =>
    Returned (Uuid.to_str (Uuid.uuid4 (urandom w (drawn w))))
             (set_drawn (S (drawn w)) w).

(** [print(s)] *)
Definition print (s : str) : M unit :=
  act (fun w => set_sys_stdout (sys_stdout w ++ s ++ [newline]) w).

Definition __enter__ (self : DockerContainer) : M DockerContainer :=
  u <- uuid4_str ;;
  let name := lit "cibuildwheel-" ++ u in
  subprocess_run
    (Argv [AStr (lit "docker"); AStr (lit "create");
           AStr (lit "--env"); AStr (lit "CIBUILDWHEEL");
           AStr (lit "--name"); AStr name;
           AStr (lit "-i");
           AStr (lit "-v"); AStr (lit "/:/host");
           AStr (docker_image self)])
    false true None ;;;
  act (emit (Popen (Argv [AStr (lit "docker"); AStr (lit "start");
                          AStr (lit "--attach"); AStr (lit "--interactive");
                          AStr name])
                   262144)) ;;;
  ret (mkContainer (docker_image self) (Some name)).

Definition __exit__ (self : DockerContainer) : M DockerContainer :=
  act (emit StdinClose) ;;;
  act (emit Terminate) ;;;
  act (emit Wait) ;;;
  match container_name self with
  | Some name =>
      subprocess_run
        (Argv [AStr (lit "docker"); AStr (lit "rm"); AStr (lit "--force");
               AStr (lit "-v"); AStr name])
        false false None ;;;
      ret (mkContainer (docker_image self) None)
  | None => raise TypeError
  end.

(** *** [call] *)

(** Where the output goes: a fresh [io.StringIO()] or [sys.stdout] *)
Inductive TextIO :=
| StringIO (value : str)
| SysStdout.

Definition write (output_io : TextIO) (s : str) : M TextIO :=
  fun w =>
    match output_io with
    | StringIO value => Returned (StringIO (value ++ s)) w
    | SysStdout => Returned SysStdout (set_sys_stdout (sys_stdout w ++ s) w)
    end.

(** [self.bash_stdout.readline()] *)
Definition readline : M str :=
  fun w =>
    match bash_stdout w with
    | [] => Returned [] w
    | line :: rest => Returned line (set_bash_stdout rest w)
    end.

Definition indent (n : nat) : str := repeat " "%char n.

(** The text written to the remote bash *)
Definition script (env_exports chdir command end_of_message : str) : str :=
  lit "(" ++ [newline]
  ++ indent 12 ++ env_exports ++ [newline]
  ++ indent 12 ++ chdir ++ [newline]
  ++ indent 12 ++ command ++ [newline]
  ++ indent 12 ++ lit "printf " ++ [dquote] ++ lit "%04d%s" ++ [newline]
  ++ [dquote] ++ lit " $? " ++ end_of_message ++ [newline]
  ++ indent 8 ++ lit ")" ++ [newline]
  ++ indent 8.

(** One turn of the [while True] loop: [inl] goes round again, [inr] is the
    [break] with the return code *)
Definition loop_body (end_of_message : str) (output_io : TextIO)
  : M (TextIO + Z * TextIO) :=
  line <- readline ;;
  if endswith line (end_of_message ++ [newline]) then
    let footer_offset := len line - 1 - len end_of_message - 4 in
    let returncode_str := slice line footer_offset (footer_offset + 4) in
    match int returncode_str with
    | None => raise ValueError
    | Some returncode =>
        output_io' <- write output_io (slice line 0 footer_offset) ;;
        ret (inr (returncode, output_io'))
    end
  else
    output_io' <- write output_io line ;;
    ret (inl output_io').

(** The loop, run for at most [fuel] turns; [Blocked] when they run out *)
Fixpoint read_loop (fuel : nat) (end_of_message : str) (output_io : TextIO)
  : M (Z * TextIO) :=
  match fuel with
  | O => fun w => Blocked w
  | S fuel' =>
      r <- loop_body end_of_message output_io ;;
      match r with
      | inl output_io' => read_loop fuel' end_of_message output_io'
      | inr done => ret done
      end
  end.

(** [env_exports], [chdir] and [command] of [call] *)
Definition env_exports_of (env : list (str * str)) : str :=
  join [newline]
       (map (fun kv => lit "export " ++ fst kv ++ lit "=" ++ snd kv) env).

Definition chdir_of (cwd : option arg) : str :=
  match cwd with
  | Some d => if truthy cwd then lit "cd " ++ arg_str d else []
  | None => []
  end.

Definition command_of (args : list arg) : str :=
  join (lit " ") (map (fun a => Shlex.quote (arg_str a)) args).

Definition call (fuel : nat) (args : list arg) (env : list (str * str))
  (capture_output : bool) (cwd : option arg) : M str :=
  let env_exports := env_exports_of env in
  let chdir := chdir_of cwd in
  let command := command_of args in
  end_of_message <- uuid4_str ;;
  print (lit "    + " ++ command) ;;;
  act (emit (StdinWrite (script env_exports chdir command end_of_message))) ;;;
  act (emit StdinFlush) ;;;
  let output_io := if capture_output then StringIO [] else SysStdout in
  r <- read_loop fuel end_of_message output_io ;;
  let '(returncode, output_io) := r in
  let output :=
    match output_io with
    | StringIO value => Some value
    | SysStdout => None
    end in
  if negb (returncode =? 0)
  then raise (CalledProcessError returncode (Argv args) output)
  else ret (match output with
            | Some ((_ :: _) as text) => text
            | _ => []
            end).

(** *** File transfer *)


Definition copy_out (self : DockerContainer)
  (from_path : PurePath) (to_path : Path) : M unit :=
  path_mkdir to_path true true ;;;
  subprocess_run
    (ShellLine (lit "docker exec -i " ++ fmt (container_name self)
                ++ lit " tar -cC " ++ path_str from_path
                ++ lit " -f - . | tar -xf -"))
    true true (Some to_path) ;;;
  ret tt.

(** *** [environment_executor] *)

Definition environment_executor (fuel : nat) (command : str)
  (environment : list (str * str)) : M str :=
  match Shlex.split command with
  | Some args => call fuel (map AStr args) environment false None
  | None => raise ValueError
  end.

(** ** Vocabulary of the statements *)

(** The world an outcome ends in *)
Definition final {A} (o : outcome A) : World :=
  match o with
  | Returned _ w | Raised _ w | Blocked w => w
  end.

(** The delimiter token the next [call] in [w] is going to draw *)
Definition token (w : World) : str :=
  Uuid.to_str (Uuid.uuid4 (urandom w (drawn w))).

(** The line that logs a command on [sys.stdout] *)
Definition log_line (args : list arg) : str :=
  lit "    + " ++ command_of args ++ [newline].

(** The world once [call] has drawn its token, logged the command, and
    written and flushed the script: the state in which the read loop starts *)
Definition sent (args : list arg) (env : list (str * str))
  (cwd : option arg) (w : World) : World :=
  emit StdinFlush
    (emit (StdinWrite (script (env_exports_of env) (chdir_of cwd)
                              (command_of args) (token w)))
       (set_sys_stdout (sys_stdout w ++ log_line args)
          (set_drawn (S (drawn w)) w))).

(** The sink [call] starts with *)
Definition sink (capture_output : bool) : TextIO :=
  if capture_output then StringIO [] else SysStdout.

(** What has been written to a sink: the buffer of a [StringIO], or all of
    [sys.stdout] *)
Definition sink_text (output_io : TextIO) (w : World) : str :=
  match output_io with
  | StringIO value => value
  | SysStdout => sys_stdout w
  end.

(** [output_io.getvalue() if isinstance(output_io, io.StringIO) else None] *)
Definition captured (output_io : TextIO) : option str :=
  match output_io with
  | StringIO value => Some value
  | SysStdout => None
  end.

Definition is_footer (end_of_message line : str) : bool :=
  endswith line (end_of_message ++ [newline]).

(** What the remote bash prints for [printf "%04d%s\n" $? <token>]: the status
    in decimal, zero-padded to a width of four (the sign counts), then the
    token and a newline *)
Definition decimal (n : N) : str :=
  lit (DecimalString.NilZero.string_of_uint (N.to_uint n)).

Definition zfill (width : nat) (digits : str) : str :=
  repeat "0"%char (width - List.length digits) ++ digits.

Definition printf_04d (n : Z) : str :=
  if n <? 0 then lit "-" ++ zfill 3 (decimal (Z.to_N (- n)))
  else zfill 4 (decimal (Z.to_N n)).

Definition footer (status : Z) (end_of_message : str) : str :=
  printf_04d status ++ end_of_message ++ [newline].

(** The check that a status survives [%04d] followed by [int] *)
Definition roundtrips (status : Z) : bool :=
  let field := printf_04d status in
  (List.length field =? 4)%nat
  && isdigit field
  && match int field with
     | Some m => m =? status
     | None => false
     end.

(** The strict ancestors of a path, nearest first *)
Fixpoint ancestors (p : Path) : list Path :=
  match p with
  | Child up _ => up :: ancestors up
  | _ => []
  end.

(** A file system is well formed when both anchors are directories and
    everything that exists lies in a directory *)
Definition fs_ok (fs : list (Path * node)) : Prop :=
  lookup fs Root = Some Dir /\ lookup fs Dot = Some Dir
  /\ forall up name, lookup fs (Child up name) <> None ->
                     lookup fs up = Some Dir.

(** The nearest existing path at or above [p] is a regular file *)
Fixpoint under_file (fs : list (Path * node)) (p : Path) : bool :=
  match lookup fs p with
  | Some File => true
  | Some Dir => false
  | None =>
      match p with
      | Child up _ => under_file fs up
      | _ => false
      end
  end.

(** The command lines of the class *)
Definition docker_rm (name : str) : cmdline :=
  Argv [AStr (lit "docker"); AStr (lit "rm"); AStr (lit "--force");
        AStr (lit "-v"); AStr name].




Definition tar_out (self : DockerContainer) (from_path : PurePath) : cmdline :=
  ShellLine (lit "docker exec -i " ++ fmt (container_name self)
             ++ lit " tar -cC " ++ path_str from_path
             ++ lit " -f - . | tar -xf -").

(** [subprocess.run(cmd, shell=True, check=True, cwd=cwd)] once the child has
    started: the action is recorded and the status decides *)
Definition checked_run (cmd : cmdline) (cwd : option Path) (w : World)
  : outcome unit :=
  if exit_status w cmd =? 0
  then Returned tt (emit (Run cmd true true cwd) w)
  else Raised (CalledProcessError (exit_status w cmd) cmd None)
              (emit (Run cmd true true cwd) w).

(** The world after one more draw from the random source: its [token] is the
    delimiter of the call after the next one *)
Definition drawn_once (w : World) : World := set_drawn (S (drawn w)) w.

(** What [call] hands back once the shell has answered with [out] and a
    footer carrying [status], in the world [w'] the read loop ends in *)
Definition answered (args : list arg) (capture_output : bool) (status : Z)
  (out : str) (w' : World) : outcome str :=
  if capture_output then
    if status =? 0 then Returned out w'
    else Raised (CalledProcessError status (Argv args) (Some out)) w'
  else
    if status =? 0
    then Returned [] (set_sys_stdout (sys_stdout w' ++ out) w')
    else Raised (CalledProcessError status (Argv args) None)
                (set_sys_stdout (sys_stdout w' ++ out) w').

(** ** Sample worlds *)

(** A host with both anchors, commands that all succeed, a random source that
    always yields zero, and the given lines pending on the shell's output *)
Definition sample_world (lines : list str) : World :=
  mkWorld (fun _ => 0%N) 0 lines [] [(Root, Dir); (Dot, Dir)] (fun _ => 0) [].

(** The token drawn in a sample world:
    [00000000-0000-4000-8000-000000000000] *)
Definition sample_token : str := token (sample_world []).

(** The same host with a project directory [/proj] that holds [setup.py];
    [docker rm] may be made to fail with [rm_status] *)
Definition proj : Path := Child Root (lit "proj").
Definition setup_py : Path := Child proj (lit "setup.py").

Definition project_world (rm_status : Z) (lines : list str) : World :=
  mkWorld (fun _ => 0%N) 0 lines []
          [(setup_py, File); (proj, Dir); (Root, Dir); (Dot, Dir)]
          (fun cmd => match cmd with
                      | Argv _ => rm_status
                      | ShellLine _ => 0
                      end)
          [].

Definition sample_container : DockerContainer :=
  mkContainer (lit "quay.io/pypa/manylinux2010_x86_64")
              (Some (lit "cibuildwheel-" ++ sample_token)).

Definition echo_hello : list arg := [AStr (lit "echo"); AStr (lit "hello")].

(** The shell's answer to [echo hello] *)
Definition hello_lines : list str :=
  [lit "hello" ++ [newline]; footer 0 sample_token].

(** * Properties *)

Unset Implicit Arguments.

(** Splits the conjunctions that are written out, not the ones behind a
    definition *)
Ltac conjs := repeat match goal with |- _ /\ _ => split end; auto.

Example slice_negative : slice (lit "abcdef") (-3) 1 = lit "".
Proof. reflexivity. Qed.
Example int_padded : int (lit "0042") = Some 42.
Proof. reflexivity. Qed.
Example int_empty : int (lit "") = None.
Proof. reflexivity. Qed.
Example split_echo :
  Shlex.split (lit "echo $X") = Some [lit "echo"; lit "$X"].
Proof. reflexivity. Qed.
Example quote_dollar : Shlex.quote (lit "$X") = lit "'$X'".
Proof. reflexivity. Qed.
Example uuid_ex : Uuid.to_str (Uuid.uuid4 0) = lit "00000000-0000-4000-8000-000000000000".
Proof. reflexivity. Qed.
Example printf_7 : printf_04d 7 = lit "0007".
Proof. reflexivity. Qed.
Example printf_neg : printf_04d (-1) = lit "-001".
Proof. reflexivity. Qed.

(** ** Strings *)

Lemma str_eqb_eq (a b : str) : str_eqb a b = true <-> a = b.
Proof.
  revert b; induction a as [|x a IH]; intros [|y b]; simpl;
    try (split; congruence).
  rewrite andb_true_iff, Ascii.eqb_eq, IH. split.
  - intros [-> ->]; reflexivity.
  - intros E; injection E; auto.
Qed.

Lemma endswith_iff (s t : str) :
  endswith s t = true <-> exists p, s = p ++ t.
Proof.
  unfold endswith. rewrite andb_true_iff, Nat.leb_le, str_eqb_eq. split.
  - intros [Hle E]. set (n := (List.length s - List.length t)%nat) in *.
    exists (firstn n s). rewrite <- E. symmetry; apply firstn_skipn.
  - intros [p ->]. rewrite length_app. split; [lia|].
    replace (List.length p + List.length t - List.length t)%nat
      with (List.length p) by lia.
    rewrite skipn_app, skipn_all, Nat.sub_diag. reflexivity.
Qed.

Lemma endswith_nil (t : str) : t <> [] -> endswith [] t = false.
Proof. destruct t; [congruence | reflexivity]. Qed.

Lemma len_app (a b : str) : len (a ++ b) = len a + len b.
Proof. unfold len. rewrite length_app. lia. Qed.

Lemma len_nonneg (a : str) : 0 <= len a.
Proof. unfold len. lia. Qed.

(** A slice with bounds inside the string that cuts it at [a | b | c] *)
Lemma slice_middle (a b c : str) :
  slice (a ++ b ++ c) (len a) (len a + len b) = b.
Proof.
  unfold slice, slice_bound. rewrite !len_app.
  pose proof (len_nonneg a). pose proof (len_nonneg b).
  pose proof (len_nonneg c).
  destruct (Z.ltb_spec (len a) 0); [lia|].
  destruct (Z.ltb_spec (len a + len b) 0); [lia|].
  rewrite !Z.min_l by lia.
  replace (len a + len b - len a) with (len b) by lia.
  unfold len. rewrite !Nat2Z.id.
  rewrite skipn_app, skipn_all, Nat.sub_diag. simpl.
  rewrite firstn_app, firstn_all, Nat.sub_diag. simpl. apply app_nil_r.
Qed.

Lemma slice_prefix (a b : str) : slice (a ++ b) 0 (len a) = a.
Proof.
  exact (slice_middle [] a b).
Qed.

Lemma slice_empty (s : str) (i j : Z) :
  slice_bound (len s) j <= slice_bound (len s) i -> slice s i j = [].
Proof.
  intros H. unfold slice.
  replace (Z.to_nat _) with 0%nat by lia. reflexivity.
Qed.

Lemma slice_length (s : str) (i j : Z) :
  0 <= i <= j -> j <= len s -> List.length (slice s i j) = Z.to_nat (j - i).
Proof.
  intros Hij Hj. unfold slice, slice_bound.
  destruct (Z.ltb_spec i 0); [lia|]. destruct (Z.ltb_spec j 0); [lia|].
  rewrite !Z.min_l by lia.
  rewrite length_firstn, length_skipn. unfold len in Hj. lia.
Qed.

(** ** The read loop *)

Lemma footer_not_nil (eom : str) : eom ++ [newline] <> [].
Proof. destruct eom; discriminate. Qed.

Lemma write_nil (io : TextIO) (w : World) : write io [] w = Returned io w.
Proof.
  destruct io, w; unfold write, set_sys_stdout; simpl;
    rewrite app_nil_r; reflexivity.
Qed.

(** At end of file [readline] returns [''], which is no footer: the turn
    writes nothing and leaves everything as it was *)
Lemma loop_body_eof (eom : str) (io : TextIO) (w : World) :
  bash_stdout w = [] -> loop_body eom io w = Returned (inl io) w.
Proof.
  intros H. unfold loop_body, bind, readline. rewrite H.
  rewrite (endswith_nil _ (footer_not_nil eom)), write_nil. reflexivity.
Qed.

(** A line that is no footer is written out whole *)
Lemma loop_body_line (eom line : str) (rest : list str) (io : TextIO)
  (w : World) :
  bash_stdout w = line :: rest -> is_footer eom line = false ->
  loop_body eom io w
  = bind (write io line) (fun io' => ret (inl io')) (set_bash_stdout rest w).
Proof.
  intros H Hf. unfold loop_body, bind at 1, readline. rewrite H.
  unfold is_footer in Hf. rewrite Hf. reflexivity.
Qed.

(** A footer line: the four characters before the token are parsed, what is
    before them is written out *)
Lemma loop_body_footer (eom line : str) (rest : list str) (io : TextIO)
  (w : World) :
  bash_stdout w = line :: rest -> is_footer eom line = true ->
  let footer_offset := len line - 1 - len eom - 4 in
  loop_body eom io w
  = match int (slice line footer_offset (footer_offset + 4)) with
    | Some returncode =>
        bind (write io (slice line 0 footer_offset))
             (fun io' => ret (inr (returncode, io')))
             (set_bash_stdout rest w)
    | None => Raised ValueError (set_bash_stdout rest w)
    end.
Proof.
  intros H Hf. unfold loop_body, bind at 1, readline. rewrite H.
  unfold is_footer in Hf. rewrite Hf. simpl.
  destruct (int _); reflexivity.
Qed.

(** Once the shell's output has ended without a footer, no amount of turns
    gets the loop out: [call] never returns *)
Lemma read_loop_eof (fuel : nat) (eom : str) (io : TextIO) (w : World) :
  bash_stdout w = [] -> read_loop fuel eom io w = Blocked w.
Proof.
  intros H. induction fuel as [|fuel IH]; simpl; [reflexivity|].
  unfold bind. rewrite (loop_body_eof eom io w H). exact IH.
Qed.

Lemma read_loop_first_footer_aux (eom line : str) (rest : list str) :
  is_footer eom line = true ->
  forall (pre : list str) (io : TextIO) (w : World) (fuel : nat),
  bash_stdout w = pre ++ line :: rest ->
  Forall (fun l => is_footer eom l = false) pre ->
  (List.length pre < fuel)%nat ->
  read_loop fuel eom io w
  = match int (slice line (len line - 1 - len eom - 4)
                          (len line - 1 - len eom - 4 + 4)) with
    | Some returncode =>
        bind (write io (List.concat pre
                        ++ slice line 0 (len line - 1 - len eom - 4)))
             (fun io' => ret (returncode, io'))
             (set_bash_stdout rest w)
    | None =>
        bind (write io (List.concat pre)) (fun _ => raise ValueError)
             (set_bash_stdout rest w)
    end.
Proof.
  intros Hf pre. induction pre as [|l pre IH]; intros io w fuel Hw Hpre Hfuel.
  - destruct fuel as [|fuel]; [simpl in Hfuel; lia|].
    simpl in Hw. simpl read_loop. unfold bind at 1.
    rewrite (loop_body_footer eom line rest io w Hw Hf). simpl List.concat.
    destruct (int _).
    + unfold bind, ret. destruct (write io _ _); reflexivity.
    + unfold bind. rewrite write_nil. reflexivity.
  - destruct fuel as [|fuel]; [simpl in Hfuel; lia|].
    simpl in Hw, Hfuel. inversion Hpre as [|? ? Hl Hpre']; subst.
    simpl read_loop. unfold bind at 1.
    rewrite (loop_body_line eom l _ io w Hw Hl).
    unfold bind at 1, ret.
    destruct io as [value|]; simpl write; cbv iota;
      (erewrite IH; [|reflexivity|assumption|lia]);
      simpl List.concat; destruct (int _); unfold bind; simpl;
      unfold set_sys_stdout, set_bash_stdout; simpl;
      rewrite <- ?app_assoc; reflexivity.
Qed.

(** ** The delimiter token *)

Lemma hex_length (width : nat) (n : N) : List.length (Uuid.hex width n) = width.
Proof.
  revert n; induction width as [|width IH]; intros n; simpl; [reflexivity|].
  rewrite length_app, IH. simpl. lia.
Qed.

(** [str(uuid.uuid4())] always has 36 characters *)
Lemma uuid_str_length (u : N) : List.length (Uuid.to_str u) = 36%nat.
Proof.
  unfold Uuid.to_str.
  assert (H : len (Uuid.hex 32 u) = 32)
    by (unfold len; rewrite hex_length; reflexivity).
  rewrite !length_app, !slice_length by (rewrite ?H; lia). reflexivity.
Qed.

(** ** Footer lines *)

(** A footer line with at least four characters before the token splits into
    output, status field, token and newline, and the two slices of the loop
    are the first two parts *)
Lemma footer_line_split (eom line : str) :
  is_footer eom line = true ->
  (4 + List.length eom + 1 <= List.length line)%nat ->
  exists prefix field,
    line = prefix ++ field ++ eom ++ [newline]
    /\ List.length field = 4%nat
    /\ slice line (len line - 1 - len eom - 4) (len line - 1 - len eom - 4 + 4)
       = field
    /\ slice line 0 (len line - 1 - len eom - 4) = prefix.
Proof.
  intros Hf Hlen. apply endswith_iff in Hf. destruct Hf as [q ->].
  rewrite !length_app in Hlen. simpl in Hlen.
  set (k := (List.length q - 4)%nat).
  exists (firstn k q), (skipn k q).
  assert (Hq : q = firstn k q ++ skipn k q) by (symmetry; apply firstn_skipn).
  assert (Hk : List.length (firstn k q) = k)
    by (rewrite length_firstn; unfold k; lia).
  assert (Hs : List.length (skipn k q) = 4%nat)
    by (rewrite length_skipn; unfold k; lia).
  assert (Hoff : len (q ++ eom ++ [newline]) - 1 - len eom - 4
                 = len (firstn k q)).
  { rewrite !len_app. unfold len. rewrite Hk. simpl. unfold k. lia. }
  rewrite Hoff. split; [|split; [exact Hs|split]].
  - rewrite Hq at 1. rewrite <- app_assoc. reflexivity.
  - rewrite Hq at 1. rewrite <- app_assoc.
    replace 4 with (len (skipn k q)) by (unfold len; rewrite Hs; reflexivity).
    apply slice_middle.
  - rewrite Hq at 1. rewrite <- app_assoc. apply slice_prefix.
Qed.

(** With fewer than four characters before a token as long as a UUID, the
    status slice is empty: [int('')] raises *)
Lemma footer_line_short (eom line : str) :
  is_footer eom line = true ->
  (3 <= List.length eom)%nat ->
  (List.length line < 4 + List.length eom + 1)%nat ->
  slice line (len line - 1 - len eom - 4) (len line - 1 - len eom - 4 + 4)
  = [].
Proof.
  intros Hf Heom Hlen. apply endswith_iff in Hf. destruct Hf as [q E].
  assert (Hl : len line = len q + len eom + 1)
    by (rewrite E, !len_app; unfold len; simpl; lia).
  apply slice_empty. unfold slice_bound, len in *.
  destruct (Z.ltb_spec (Z.of_nat (List.length line) - 1
                        - Z.of_nat (List.length eom) - 4) 0); [|lia].
  destruct (Z.ltb_spec (Z.of_nat (List.length line) - 1
                        - Z.of_nat (List.length eom) - 4 + 4) 0); lia.
Qed.

(** A footer line made of [field ++ token ++ newline] after some output *)
Lemma is_footer_intro (eom before : str) :
  is_footer eom (before ++ eom ++ [newline]) = true.
Proof. apply endswith_iff. exists before. reflexivity. Qed.

(** ** Exit statuses in the footer *)

Lemma roundtrips_all :
  forallb roundtrips (map Z.of_nat (seq 0 (Z.to_nat 10000))) = true.
Proof. vm_cast_no_check (eq_refl true). Qed.

(** [%04d] gives four characters that [int] reads back, for every status
    that fits *)
Lemma printf_04d_int (status : Z) :
  0 <= status <= 9999 ->
  List.length (printf_04d status) = 4%nat
  /\ isdigit (printf_04d status) = true
  /\ int (printf_04d status) = Some status.
Proof.
  intros H. pose proof roundtrips_all as A. rewrite forallb_forall in A.
  assert (Hin : In status (map Z.of_nat (seq 0 (Z.to_nat 10000)))).
  { apply in_map_iff. exists (Z.to_nat status). split; [lia|].
    apply in_seq. lia. }
  apply A in Hin. unfold roundtrips in Hin.
  apply andb_true_iff in Hin. destruct Hin as [Hin Hi].
  apply andb_true_iff in Hin. destruct Hin as [Hl Hd].
  apply Nat.eqb_eq in Hl. split; [exact Hl|]. split; [exact Hd|].
  destruct (int (printf_04d status)) as [m|]; [|discriminate].
  apply Z.eqb_eq in Hi. subst. reflexivity.
Qed.

(** C2: for every exit status in [0, 9999], the footer line that bash prints
    for [printf "%04d%s\n" $? <token>] carries the status as exactly four
    decimal digits, and the loop body of [call], which reads the four
    characters before the token with [int], gets the same status back; what
    precedes the status on the line is written to the sink. *)
Theorem footer_roundtrip (status : Z) (eom out : str) (rest : list str)
  (io : TextIO) (w : World) :
  0 <= status <= 9999 ->
  bash_stdout w = (out ++ footer status eom) :: rest ->
  List.length (printf_04d status) = 4%nat
  /\ isdigit (printf_04d status) = true
  /\ loop_body eom io w
     = bind (write io out) (fun io' => ret (inr (status, io')))
            (set_bash_stdout rest w).
Proof.
  intros Hs Hw. destruct (printf_04d_int status Hs) as (Hlen & Hdig & Hint).
  split; [exact Hlen|]. split; [exact Hdig|].
  unfold footer in Hw.
  assert (Hf : is_footer eom (out ++ printf_04d status ++ eom ++ [newline])
               = true).
  { rewrite app_assoc. apply is_footer_intro. }
  rewrite (loop_body_footer eom _ rest io w Hw Hf).
  assert (Hoff : len (out ++ printf_04d status ++ eom ++ [newline]) - 1
                 - len eom - 4 = len out).
  { unfold len. rewrite !length_app, Hlen. simpl List.length. lia. }
  rewrite Hoff.
  replace (len out + 4) with (len out + len (printf_04d status))
    by (unfold len; rewrite Hlen; reflexivity).
  rewrite slice_middle, slice_prefix, Hint. reflexivity.
Qed.

Lemma footer_roundtrip_witness :
  0 <= 137 <= 9999
  /\ bash_stdout (sample_world [lit "bye" ++ footer 137 sample_token])
     = (lit "bye" ++ footer 137 sample_token) :: []
  /\ loop_body sample_token (StringIO []) 
               (sample_world [lit "bye" ++ footer 137 sample_token])
     = Returned (inr (137, StringIO (lit "bye"))) (sample_world []).
Proof.
  split; [lia|]. split; [reflexivity|].
  refine (eq_trans
            (proj2 (proj2 (footer_roundtrip 137 sample_token (lit "bye") []
                      (StringIO [])
                      (sample_world [lit "bye" ++ footer 137 sample_token])
                      _ eq_refl)))
            eq_refl).
  lia.
Defined.

(** C5: the read loop stops at the first line that ends with the token and a
    newline, whatever comes after it. With enough turns for the lines before
    it, the loop parses the status from the four characters before the token
    on that line, writes the lines before it and the part of the line before
    the status, and leaves every later line (a genuine footer included)
    unread; when the four characters are not a number it raises
    [ValueError]. No other check is made on the line. *)
Theorem read_loop_first_footer (eom line : str) (pre rest : list str)
  (io : TextIO) (w : World) (fuel : nat) :
  bash_stdout w = pre ++ line :: rest ->
  Forall (fun l => is_footer eom l = false) pre ->
  is_footer eom line = true ->
  (List.length pre < fuel)%nat ->
  let footer_offset := len line - 1 - len eom - 4 in
  read_loop fuel eom io w
  = match int (slice line footer_offset (footer_offset + 4)) with
    | Some returncode =>
        bind (write io (List.concat pre ++ slice line 0 footer_offset))
             (fun io' => ret (returncode, io'))
             (set_bash_stdout rest w)
    | None =>
        bind (write io (List.concat pre)) (fun _ => raise ValueError)
             (set_bash_stdout rest w)
    end
  /\ bash_stdout (final (read_loop fuel eom io w)) = rest.
Proof.
  intros Hw Hpre Hf Hfuel footer_offset.
  pose proof (read_loop_first_footer_aux eom line rest Hf pre io w fuel
                Hw Hpre Hfuel) as E.
  fold footer_offset in E. split; [exact E|].
  rewrite E. destruct (int _); destruct io; reflexivity.
Qed.

(** An ordinary output line that happens to end with the token is taken for
    the footer: the command's real status, 0, is never read. *)
Lemma read_loop_first_footer_witness :
  let w := sample_world [lit "hello" ++ [newline];
                         lit "0042" ++ sample_token ++ [newline];
                         footer 0 sample_token] in
  bash_stdout w
  = [lit "hello" ++ [newline]]
    ++ (lit "0042" ++ sample_token ++ [newline]) :: [footer 0 sample_token]
  /\ Forall (fun l => is_footer sample_token l = false)
            [lit "hello" ++ [newline]]
  /\ is_footer sample_token (lit "0042" ++ sample_token ++ [newline]) = true
  /\ (List.length [lit "hello" ++ [newline]] < 5)%nat
  /\ read_loop 5 sample_token (StringIO []) w
     = Returned (42, StringIO (lit "hello" ++ [newline]))
                (sample_world [footer 0 sample_token]).
Proof.
  intros w.
  assert (H1 : Forall (fun l => is_footer sample_token l = false)
                      [lit "hello" ++ [newline]])
    by (constructor; [reflexivity | constructor]).
  assert (H2 : (List.length [lit "hello" ++ [newline]] < 5)%nat)
    by (simpl; lia).
  split; [reflexivity|]. split; [exact H1|]. split; [reflexivity|].
  split; [exact H2|].
  exact (eq_trans
           (proj1 (read_loop_first_footer sample_token
                     (lit "0042" ++ sample_token ++ [newline])
                     [lit "hello" ++ [newline]] [footer 0 sample_token]
                     (StringIO []) w 5 eq_refl H1 eq_refl H2))
           eq_refl).
Defined.

(** What a run of the read loop that comes back with a return code has seen
    and done, for a token that is a UUID *)
Lemma read_loop_returned (u : N) (fuel : nat) (io io' : TextIO) (w w' : World)
  (returncode : Z) :
  read_loop fuel (Uuid.to_str u) io w = Returned (returncode, io') w' ->
  exists pre prefix field rest,
    bash_stdout w
    = pre ++ (prefix ++ field ++ Uuid.to_str u ++ [newline]) :: rest
    /\ Forall (fun l => is_footer (Uuid.to_str u) l = false) pre
    /\ List.length field = 4%nat
    /\ int field = Some returncode
    /\ (List.length pre < fuel)%nat
    /\ write io (List.concat pre ++ prefix) (set_bash_stdout rest w)
       = Returned io' w'.
Proof.
  set (eom := Uuid.to_str u).
  revert io w. induction fuel as [|fuel IH]; intros io w H; [discriminate|].
  destruct (bash_stdout w) as [|line rest] eqn:Hw.
  { rewrite (read_loop_eof (S fuel) eom io w Hw) in H. discriminate. }
  simpl in H. unfold bind at 1 in H.
  destruct (is_footer eom line) eqn:Hf.
  - rewrite (loop_body_footer eom line rest io w Hw Hf) in H.
    destruct (Nat.le_gt_cases (4 + List.length eom + 1) (List.length line))
      as [Hlong|Hshort].
    + destruct (footer_line_split eom line Hf Hlong)
        as (prefix & field & Hline & Hlen & Hs1 & Hs2).
      rewrite Hs1, Hs2 in H.
      destruct (int field) as [rc|] eqn:Hint; [|discriminate].
      exists [], prefix, field, rest. simpl.
      destruct io; simpl in H; injection H as <- <- <-; subst line;
        repeat split; auto; lia.
    + rewrite (footer_line_short eom line Hf) in H;
        [discriminate| unfold eom; rewrite uuid_str_length; lia | lia].
  - rewrite (loop_body_line eom line rest io w Hw Hf) in H.
    unfold bind at 1, ret in H.
    destruct io as [value|]; simpl write in H; cbv iota in H;
      apply IH in H;
      destruct H as (pre & prefix & field & rest' & H1 & H2 & H3 & H4 & H5
                     & H6);
      simpl in H1; exists (line :: pre), prefix, field, rest'; simpl;
      rewrite H1; (repeat split; auto; [lia|]);
      rewrite <- H6; unfold write, set_sys_stdout, set_bash_stdout; simpl;
      rewrite <- ?app_assoc; reflexivity.
Qed.

(** C4: whenever the read loop comes back with a return code, the shell's
    output was some lines without footer, then a line made of a prefix, a
    four-character status field, the token and a newline; the sink (buffer or
    [sys.stdout]) has received those lines and the prefix and nothing else:
    neither the status field, nor the token, nor the final newline. *)
Theorem footer_excluded (u : N) (fuel : nat) (io io' : TextIO) (w w' : World)
  (returncode : Z) :
  read_loop fuel (Uuid.to_str u) io w = Returned (returncode, io') w' ->
  exists pre prefix field rest,
    bash_stdout w
    = pre ++ (prefix ++ field ++ Uuid.to_str u ++ [newline]) :: rest
    /\ Forall (fun l => is_footer (Uuid.to_str u) l = false) pre
    /\ List.length field = 4%nat
    /\ int field = Some returncode
    /\ sink_text io' w' = sink_text io w ++ List.concat pre ++ prefix
    /\ captured io' = match captured io with
                      | Some value => Some (value ++ List.concat pre ++ prefix)
                      | None => None
                      end
    /\ bash_stdout w' = rest.
Proof.
  intros H. apply read_loop_returned in H.
  destruct H as (pre & prefix & field & rest & H1 & H2 & H3 & H4 & _ & H6).
  exists pre, prefix, field, rest.
  repeat (split; [assumption|]).
  destruct io; simpl in H6; injection H6 as <- <-; repeat split; reflexivity.
Qed.

Lemma footer_excluded_witness :
  let w := sample_world [lit "hello" ++ [newline];
                         lit "abc" ++ footer 3 sample_token;
                         lit "later" ++ [newline]] in
  let w' := set_sys_stdout (lit "hello" ++ [newline] ++ lit "abc")
                           (sample_world [lit "later" ++ [newline]]) in
  read_loop 5 sample_token SysStdout w = Returned (3, SysStdout) w'
  /\ exists pre prefix field rest,
       bash_stdout w
       = pre ++ (prefix ++ field ++ sample_token ++ [newline]) :: rest
       /\ Forall (fun l => is_footer sample_token l = false) pre
       /\ List.length field = 4%nat
       /\ int field = Some 3
       /\ sink_text SysStdout w'
          = sink_text SysStdout w ++ List.concat pre ++ prefix
       /\ captured SysStdout = None
       /\ bash_stdout w' = rest.
Proof.
  intros w w'. split; [reflexivity|].
  exact (footer_excluded (Uuid.uuid4 0) 5 SysStdout SysStdout w w' 3 eq_refl).
Defined.

(** ** [call] *)

(** [call] is the read loop, started in the world where the script has been
    sent, followed by the test of the return code *)
Lemma call_unfold (fuel : nat) (args : list arg) (env : list (str * str))
  (capture_output : bool) (cwd : option arg) (w : World) :
  call fuel args env capture_output cwd w
  = match read_loop fuel (token w) (sink capture_output)
                    (sent args env cwd w) with
    | Returned (returncode, io) w' =>
        if negb (returncode =? 0)
        then Raised (CalledProcessError returncode (Argv args) (captured io)) w'
        else Returned (match captured io with
                       | Some text => text
                       | None => []
                       end) w'
    | Raised e w' => Raised e w'
    | Blocked w' => Blocked w'
    end.
Proof.
  unfold call, bind, uuid4_str, print, act, sink, sent, token, log_line.
  match goal with
  | |- match ?a with _ => _ end = match ?b with _ => _ end =>
      change a with b; destruct b as [[returncode io] w'|e w'|w']
  end; try reflexivity.
  destruct (negb (returncode =? 0)); [reflexivity|].
  destruct io as [[|c value]|]; reflexivity.
Qed.

(** The loop hands back the sink it was given: a buffer stays a buffer *)
Lemma read_loop_sink_kind (u : N) (fuel : nat) (io io' : TextIO)
  (w w' : World) (returncode : Z) :
  read_loop fuel (Uuid.to_str u) io w = Returned (returncode, io') w' ->
  (captured io' = None <-> captured io = None).
Proof.
  intros H. apply read_loop_returned in H.
  destruct H as (pre & prefix & field & rest & _ & _ & _ & _ & _ & H6).
  destruct io; simpl in H6; injection H6 as <- <-; simpl; split; congruence.
Qed.

(** C3: once the read loop has parsed a return code, [call] raises
    [CalledProcessError] with that code, the argument vector it was given and
    the captured output ([None] when capture was not requested) exactly when
    the code is not zero; when it is zero, [call] returns the captured text,
    and the empty string when nothing was captured. *)
Theorem call_raises_iff_nonzero (fuel : nat) (args : list arg)
  (env : list (str * str)) (capture_output : bool) (cwd : option arg)
  (w w' : World) (returncode : Z) (io : TextIO) :
  read_loop fuel (token w) (sink capture_output) (sent args env cwd w)
  = Returned (returncode, io) w' ->
  (returncode <> 0 ->
   call fuel args env capture_output cwd w
   = Raised (CalledProcessError returncode (Argv args) (captured io)) w')
  /\ (returncode = 0 ->
      call fuel args env capture_output cwd w
      = Returned (match captured io with
                  | Some text => text
                  | None => []
                  end) w')
  /\ ((exists e w2, call fuel args env capture_output cwd w = Raised e w2)
      <-> returncode <> 0)
  /\ (captured io = None <-> capture_output = false).
Proof.
  intros H. rewrite call_unfold, H.
  assert (Hk : captured io = None <-> capture_output = false).
  { unfold token in H. rewrite (read_loop_sink_kind _ _ _ _ _ _ _ H).
    destruct capture_output; simpl; split; congruence. }
  destruct (Z.eqb_spec returncode 0) as [E|E]; simpl.
  - repeat split; try tauto; try congruence.
    intros (e & w2 & D). discriminate.
  - repeat split; try tauto; try congruence.
    intros _. eauto.
Qed.

Lemma call_raises_iff_nonzero_witness :
  let w := sample_world [lit "oops" ++ [newline]; footer 1 sample_token] in
  read_loop 5 (token w) (sink true) (sent [AStr (lit "false")] [] None w)
  = Returned (1, StringIO (lit "oops" ++ [newline]))
             (sent [AStr (lit "false")] [] None (sample_world []))
  /\ call 5 [AStr (lit "false")] [] true None w
     = Raised (CalledProcessError 1 (Argv [AStr (lit "false")])
                                  (Some (lit "oops" ++ [newline])))
              (sent [AStr (lit "false")] [] None (sample_world [])).
Proof.
  intros w. split; [reflexivity|].
  refine (proj1 (call_raises_iff_nonzero 5 [AStr (lit "false")] [] true None
                   w (sent [AStr (lit "false")] [] None (sample_world []))
                   1 (StringIO (lit "oops" ++ [newline])) eq_refl) _).
  lia.
Defined.

(** The two slices the loop takes from a well-formed footer line *)
Lemma footer_line_slices (eom prefix field : str) :
  List.length field = 4%nat ->
  slice (prefix ++ field ++ eom ++ [newline])
        (len (prefix ++ field ++ eom ++ [newline]) - 1 - len eom - 4)
        (len (prefix ++ field ++ eom ++ [newline]) - 1 - len eom - 4 + 4)
  = field
  /\ slice (prefix ++ field ++ eom ++ [newline]) 0
           (len (prefix ++ field ++ eom ++ [newline]) - 1 - len eom - 4)
     = prefix.
Proof.
  intros Hlen.
  assert (Hoff : len (prefix ++ field ++ eom ++ [newline]) - 1 - len eom - 4
                 = len prefix).
  { unfold len. rewrite !length_app, Hlen. simpl List.length. lia. }
  rewrite Hoff.
  replace (len prefix + 4) with (len prefix + len field)
    by (unfold len; rewrite Hlen; reflexivity).
  split; [apply slice_middle | apply slice_prefix].
Qed.

(** The same shell output read into a buffer and read onto [sys.stdout]: the
    loop comes back with the same return code, and [sys.stdout] has grown by
    the text that the buffer holds *)
Lemma read_loop_capture_vs_stream (u : N) (fuel : nat) (w w1 : World)
  (returncode : Z) (io : TextIO) :
  read_loop fuel (Uuid.to_str u) (StringIO []) w = Returned (returncode, io) w1 ->
  exists text,
    io = StringIO text
    /\ sys_stdout w1 = sys_stdout w
    /\ read_loop fuel (Uuid.to_str u) SysStdout w
       = Returned (returncode, SysStdout)
                  (set_sys_stdout (sys_stdout w1 ++ text) w1).
Proof.
  intros H. apply read_loop_returned in H.
  destruct H as (pre & prefix & field & rest & H1 & H2 & H3 & H4 & H5 & H6).
  simpl in H6. injection H6 as <- <-.
  exists (List.concat pre ++ prefix). split; [reflexivity|].
  split; [reflexivity|].
  assert (Hf : is_footer (Uuid.to_str u)
                 (prefix ++ field ++ Uuid.to_str u ++ [newline]) = true).
  { rewrite app_assoc. apply is_footer_intro. }
  rewrite (read_loop_first_footer_aux _ _ rest Hf pre SysStdout w fuel
             H1 H2 H5).
  destruct (footer_line_slices (Uuid.to_str u) prefix field H3) as [E1 E2].
  rewrite E1, E2, H4. reflexivity.
Qed.

(** The only error the loop itself raises is the [ValueError] of [int] *)
Lemma read_loop_raises (fuel : nat) (eom : str) (io : TextIO) (w w' : World)
  (e : exn) :
  read_loop fuel eom io w = Raised e w' -> e = ValueError.
Proof.
  revert io w. induction fuel as [|fuel IH]; intros io w H; [discriminate|].
  simpl in H. unfold bind at 1 in H. unfold loop_body, bind at 1, readline in H.
  destruct (bash_stdout w) as [|line rest];
    [destruct (endswith [] _)|destruct (endswith line _)];
    try destruct (int _);
    destruct io; simpl in H; unfold bind, write, ret in H; simpl in H;
    try (apply IH in H; exact H); congruence.
Qed.

(** C6, as the code has it: with the same shell output, a [call] without
    capture returns [''] and leaves on [sys.stdout] the log line
    [    + <command>] followed by exactly the text that the [call] with capture
    returns (or, for a non-zero status, attaches to the error); with capture,
    [sys.stdout] receives the log line alone. *)
Theorem streamed_is_log_then_captured (fuel : nat) (args : list arg)
  (env : list (str * str)) (cwd : option arg) (w : World) :
  match call fuel args env true cwd w with
  | Returned out w1 =>
      sys_stdout w1 = sys_stdout w ++ log_line args
      /\ call fuel args env false cwd w
         = Returned [] (set_sys_stdout (sys_stdout w ++ log_line args ++ out) w1)
  | Raised (CalledProcessError returncode cmd (Some out)) w1 =>
      sys_stdout w1 = sys_stdout w ++ log_line args
      /\ call fuel args env false cwd w
         = Raised (CalledProcessError returncode cmd None)
                  (set_sys_stdout (sys_stdout w ++ log_line args ++ out) w1)
  | _ => True
  end.
Proof.
  rewrite !call_unfold. unfold sink, token.
  destruct (read_loop fuel _ (StringIO []) (sent args env cwd w))
    as [[returncode io] w1|e w1|w1] eqn:H;
    [|rewrite (read_loop_raises _ _ _ _ _ _ H); exact I|exact I].
  apply read_loop_capture_vs_stream in H.
  destruct H as (text & -> & Hs & ->).
  assert (Hw : sys_stdout w1 = sys_stdout w ++ log_line args)
    by (rewrite Hs; reflexivity).
  rewrite Hw, <- app_assoc.
  destruct (negb (returncode =? 0)); simpl; split; auto.
Qed.

(** C6, as stated, fails: [sys.stdout] also carries the log line. *)
Lemma streamed_differs_from_captured :
  let w := sample_world hello_lines in
  exists w1 w2,
    call 5 echo_hello [] true None w = Returned (lit "hello" ++ [newline]) w1
    /\ call 5 echo_hello [] false None w = Returned [] w2
    /\ sys_stdout w = []
    /\ sys_stdout w2
       = lit "    + echo hello" ++ [newline] ++ lit "hello" ++ [newline]
    /\ sys_stdout w2 <> lit "hello" ++ [newline].
Proof.
  intros w.
  exists (final (call 5 echo_hello [] true None w)),
         (final (call 5 echo_hello [] false None w)).
  split; [vm_compute; reflexivity|]. split; [vm_compute; reflexivity|].
  split; [reflexivity|]. split; [vm_compute; reflexivity|].
  vm_compute. discriminate.
Qed.

(** ** [environment_executor] *)

(** C1: [environment_executor] calls [call] without [capture_output], so the
    command's output goes to [sys.stdout] and, whatever the command line, the
    environment and the shell's answer, the value it returns is the empty
    string: never the output text, and in particular never ["val\n"]. *)
Theorem environment_executor_returns_nothing (fuel : nat) (command : str)
  (environment : list (str * str)) (w : World) :
  match environment_executor fuel command environment w with
  | Returned out _ => out = []
  | _ => True
  end.
Proof.
  unfold environment_executor.
  destruct (Shlex.split command) as [args|]; [|exact I].
  rewrite call_unfold.
  destruct (read_loop _ _ _ _) as [[returncode io] w1|e w1|w1] eqn:H;
    try exact I.
  unfold token in H. apply read_loop_sink_kind in H.
  destruct (negb (returncode =? 0)); [exact I|].
  destruct H as [_ H]. rewrite (H eq_refl). reflexivity.
Qed.

(** The scenario of the specification: the argument vector is [echo] and the
    quoted ['$X'], and even a shell that answers [val] gets [''] returned. *)
Example environment_executor_echo :
  let w := sample_world [lit "val" ++ [newline]; footer 0 sample_token] in
  Shlex.split (lit "echo $X") = Some [lit "echo"; lit "$X"]
  /\ command_of [AStr (lit "echo"); AStr (lit "$X")] = lit "echo '$X'"
  /\ exists w',
       environment_executor 5 (lit "echo $X") [(lit "X", lit "val")] w
       = Returned [] w'
       /\ sys_stdout w'
          = lit "    + echo '$X'" ++ [newline] ++ lit "val" ++ [newline].
Proof.
  intros w. split; [reflexivity|]. split; [reflexivity|].
  exists (final (environment_executor 5 (lit "echo $X")
                   [(lit "X", lit "val")] w)).
  split; vm_compute; reflexivity.
Qed.

(** ** What [call] leaves alone *)




(** [subprocess.run] with [shell=True, check=True] in a directory that exists *)
Lemma subprocess_run_checked (cmd : cmdline) (cwd : option Path) (w : World) :
  match cwd with
  | Some d => is_dir (host_fs w) d = true
  | None => True
  end ->
  bind (subprocess_run cmd true true cwd) (fun _ => ret tt) w
  = checked_run cmd cwd w.
Proof.
  intros H. unfold subprocess_run, checked_run, bind, enter_cwd, act, ret.
  destruct cwd as [d|].
  - unfold is_dir in H. destruct (lookup (host_fs w) d) as [[|]|];
      try discriminate.
    simpl. destruct (exit_status w cmd =? 0); reflexivity.
  - simpl. destruct (exit_status w cmd =? 0); reflexivity.
Qed.

(** ** File transfer into the container *)



(** ** Leaving the container *)

(** C8: [__exit__] closes the shell's input, terminates the shell process,
    waits for it, and then runs [docker rm --force -v <name>], in this
    order. *)
Theorem exit_order (image name : str) (w : World) :
  trace (final (__exit__ (mkContainer image (Some name)) w))
  = trace w
    ++ [StdinClose; Terminate; Wait; Run (docker_rm name) false false None].
Proof.
  unfold __exit__, bind, act, subprocess_run, enter_cwd, ret, bind, emit.
  simpl. rewrite <- !app_assoc. reflexivity.
Qed.

(** C9: the status of [docker rm] is not looked at: also when the removal
    fails, [__exit__] returns, with the container name reset. *)
Theorem exit_ignores_rm_failure (image name : str) (w : World) :
  exit_status w (docker_rm name) <> 0 ->
  __exit__ (mkContainer image (Some name)) w
  = Returned (mkContainer image None)
             (emit (Run (docker_rm name) false false None)
                (emit Wait (emit Terminate (emit StdinClose w)))).
Proof. intros _. reflexivity. Qed.

Lemma exit_ignores_rm_failure_witness :
  exit_status (project_world 1 [])
              (docker_rm (lit "cibuildwheel-" ++ sample_token)) <> 0
  /\ exists w',
       __exit__ sample_container (project_world 1 [])
       = Returned (mkContainer (docker_image sample_container) None) w'.
Proof.
  assert (H : exit_status (project_world 1 [])
                (docker_rm (lit "cibuildwheel-" ++ sample_token)) <> 0)
    by discriminate.
  split; [exact H|].
  eexists.
  exact (exit_ignores_rm_failure (docker_image sample_container)
           (lit "cibuildwheel-" ++ sample_token) (project_world 1 []) H).
Defined.

(** ** The host file system *)

Lemma path_eqb_eq (p q : PurePath) : path_eqb p q = true <-> p = q.
Proof.
  revert q; induction p as [| |up IH name]; intros [| |up' name']; simpl;
    try (split; congruence).
  rewrite andb_true_iff, str_eqb_eq, IH. split.
  - intros [-> ->]; reflexivity.
  - intros E; injection E; auto.
Qed.

Lemma path_eqb_refl (p : PurePath) : path_eqb p p = true.
Proof. apply path_eqb_eq. reflexivity. Qed.

Lemma path_eqb_neq (p q : PurePath) : p <> q -> path_eqb p q = false.
Proof.
  intros H. destruct (path_eqb p q) eqn:E; [|reflexivity].
  apply path_eqb_eq in E. contradiction.
Qed.

Lemma child_neq (up : PurePath) (name : str) : Child up name <> up.
Proof.
  induction up as [| |up IH name']; try discriminate.
  intros E. injection E as E1 E2. subst. exact (IH E1).
Qed.

Lemma under_file_eq (fs : list (Path * node)) (p : Path) :
  under_file fs p
  = match lookup fs p with
    | Some File => true
    | Some Dir => false
    | None =>
        match p with
        | Child up _ => under_file fs up
        | _ => false
        end
    end.
Proof. destruct p; reflexivity. Qed.

(** Adding a directory below an existing directory keeps the file system
    well formed, keeps what was there, and adds no file *)
Lemma add_dir_ok (fs : list (Path * node)) (up : Path) (name : str) :
  fs_ok fs ->
  lookup fs (Child up name) = None ->
  lookup fs up = Some Dir ->
  fs_ok ((Child up name, Dir) :: fs)
  /\ lookup ((Child up name, Dir) :: fs) (Child up name) = Some Dir
  /\ (forall q n, lookup fs q = Some n ->
                  lookup ((Child up name, Dir) :: fs) q = Some n)
  /\ (forall q, lookup ((Child up name, Dir) :: fs) q = Some File ->
                lookup fs q = Some File).
Proof.
  intros (HR & HD & Hup) Hnone Hdir.
  assert (Hl : forall q, lookup ((Child up name, Dir) :: fs) q
                         = if path_eqb (Child up name) q then Some Dir
                           else lookup fs q) by reflexivity.
  repeat split.
  - rewrite Hl. exact HR.
  - rewrite Hl. exact HD.
  - intros up' name'. rewrite !Hl.
    destruct (path_eqb (Child up name) (Child up' name')) eqn:E.
    + apply path_eqb_eq in E. injection E as <- <-. intros _.
      rewrite (path_eqb_neq _ _ (child_neq up name)). exact Hdir.
    + intros H. destruct (path_eqb (Child up name) up'); [reflexivity|].
      apply Hup with name'. exact H.
  - rewrite Hl, path_eqb_refl. reflexivity.
  - intros q n H. rewrite Hl.
    destruct (path_eqb (Child up name) q) eqn:E; [|exact H].
    apply path_eqb_eq in E. subst q. congruence.
  - intros q. rewrite Hl.
    destruct (path_eqb (Child up name) q); [discriminate|auto].
Qed.

(** [mkdir(parents=True, exist_ok=True)] on a well-formed file system where no
    regular file is in the way: it succeeds, the path is a directory
    afterwards, nothing that existed is lost, and an existing directory
    leaves the file system as it is *)
Lemma mkdir_parents_ok (p : Path) :
  forall fs,
  fs_ok fs -> under_file fs p = false ->
  exists fs',
    mkdir p true true fs = inr fs'
    /\ fs_ok fs'
    /\ lookup fs' p = Some Dir
    /\ (forall q n, lookup fs q = Some n -> lookup fs' q = Some n)
    /\ (forall q, lookup fs' q = Some File -> lookup fs q = Some File)
    /\ (lookup fs p = Some Dir -> fs' = fs).
Proof.
  induction p as [| |up IH name]; intros fs Hok Hunder.
  - pose proof Hok as (HR & HD & Hup). exists fs.
    unfold mkdir, os_mkdir, is_dir. rewrite HR. simpl. conjs.
  - pose proof Hok as (HR & HD & Hup). exists fs.
    unfold mkdir, os_mkdir, is_dir. rewrite HD. simpl. conjs.
  - rewrite under_file_eq in Hunder.
    destruct (lookup fs (Child up name)) as [[|]|] eqn:Hp; [discriminate| |].
    + exists fs.
      assert (E : mkdir (Child up name) true true fs = inr fs)
        by (simpl; unfold os_mkdir, is_dir; rewrite Hp; reflexivity).
      conjs.
    + rewrite under_file_eq in Hunder.
      destruct (lookup fs up) as [[|]|] eqn:Hu; [discriminate| |].
      * exists ((Child up name, Dir) :: fs).
        assert (E : mkdir (Child up name) true true fs
                    = inr ((Child up name, Dir) :: fs))
          by (simpl; unfold os_mkdir; rewrite Hp; simpl parent; rewrite Hu;
              reflexivity).
        destruct (add_dir_ok fs up name Hok Hp Hu) as (A1 & A2 & A3 & A4).
        conjs. discriminate.
      * assert (Hunder' : under_file fs up = false)
          by (rewrite under_file_eq, Hu; exact Hunder).
        destruct (IH fs Hok Hunder')
          as (fs1 & M1 & M2 & M3 & M4 & M5 & _).
        assert (E : mkdir (Child up name) true true fs
                    = mkdir_flat (Child up name) true fs1)
          by (simpl; unfold os_mkdir at 1; rewrite Hp; simpl parent;
              rewrite Hu, M1; reflexivity).
        rewrite E. unfold mkdir_flat, os_mkdir, is_dir.
        destruct (lookup fs1 (Child up name)) as [[|]|] eqn:Hp1.
        -- apply M5 in Hp1. congruence.
        -- exists fs1. simpl. conjs. discriminate.
        -- simpl parent. rewrite M3.
           destruct (add_dir_ok fs1 up name M2 Hp1 M3) as (A1 & A2 & A3 & A4).
           exists ((Child up name, Dir) :: fs1). conjs. discriminate.
Qed.

(** In a well-formed file system every ancestor of a directory is one *)
Lemma ancestors_are_dirs (fs : list (Path * node)) (p : Path) :
  fs_ok fs -> lookup fs p = Some Dir ->
  Forall (fun q => is_dir fs q = true) (p :: ancestors p).
Proof.
  intros Hok. induction p as [| |up IH name]; intros H.
  - constructor; [unfold is_dir; rewrite H; reflexivity | constructor].
  - constructor; [unfold is_dir; rewrite H; reflexivity | constructor].
  - constructor; [unfold is_dir; rewrite H; reflexivity|].
    simpl. apply IH. destruct Hok as (_ & _ & Hup).
    apply Hup with name. congruence.
Qed.

(** ** File transfer out of the container *)

(** C10: on a well-formed host file system where no regular file stands at or
    above [to_path], [copy_out] makes [to_path] a directory together with
    every missing directory above it, loses nothing that existed, leaves the
    file system untouched when [to_path] is a directory already, and then
    runs the extraction pipeline with [to_path] as working directory. *)
Theorem copy_out_makes_directory (self : DockerContainer)
  (from_path : PurePath) (to_path : Path) (w : World) :
  fs_ok (host_fs w) ->
  under_file (host_fs w) to_path = false ->
  exists fs',
    mkdir to_path true true (host_fs w) = inr fs'
    /\ Forall (fun p => is_dir fs' p = true) (to_path :: ancestors to_path)
    /\ (forall q n, lookup (host_fs w) q = Some n -> lookup fs' q = Some n)
    /\ (is_dir (host_fs w) to_path = true -> fs' = host_fs w)
    /\ copy_out self from_path to_path w
       = checked_run (tar_out self from_path) (Some to_path)
                     (set_host_fs fs' w)
    /\ trace (final (copy_out self from_path to_path w))
       = trace w ++ [Run (tar_out self from_path) true true (Some to_path)].
Proof.
  intros Hok Hunder.
  destruct (mkdir_parents_ok to_path (host_fs w) Hok Hunder)
    as (fs' & M1 & M2 & M3 & M4 & _ & M6).
  exists fs'.
  assert (Hd : is_dir fs' to_path = true)
    by (unfold is_dir; rewrite M3; reflexivity).
  assert (E : copy_out self from_path to_path w
              = checked_run (tar_out self from_path) (Some to_path)
                            (set_host_fs fs' w)).
  { unfold copy_out, bind at 1, path_mkdir. rewrite M1.
    apply (subprocess_run_checked (tar_out self from_path) (Some to_path)).
    exact Hd. }
  split; [exact M1|].
  split; [exact (ancestors_are_dirs fs' to_path M2 M3)|].
  split; [exact M4|]. split.
  - intros H. apply M6. unfold is_dir in H.
    destruct (lookup (host_fs w) to_path) as [[|]|]; congruence.
  - split; [exact E|]. rewrite E. unfold checked_run.
    destruct (exit_status _ _ =? 0); reflexivity.
Qed.

Lemma project_fs_ok (rm_status : Z) (lines : list str) :
  fs_ok (host_fs (project_world rm_status lines)).
Proof.
  split; [reflexivity|]. split; [reflexivity|].
  intros up name H.
  assert (E : lookup (host_fs (project_world rm_status lines)) (Child up name)
              = if path_eqb setup_py (Child up name) then Some File
                else if path_eqb proj (Child up name) then Some Dir
                else None) by reflexivity.
  rewrite E in H. clear E.
  destruct (path_eqb setup_py (Child up name)) eqn:E1.
  - apply path_eqb_eq in E1. injection E1 as <- _. reflexivity.
  - destruct (path_eqb proj (Child up name)) eqn:E2; [|congruence].
    apply path_eqb_eq in E2. injection E2 as <- _. reflexivity.
Qed.

Lemma copy_out_makes_directory_witness :
  let w := project_world 0 [] in
  let build := Child proj (lit "build") in
  let wheels := Child build (lit "wheels") in
  fs_ok (host_fs w)
  /\ under_file (host_fs w) wheels = false
  /\ exists fs',
       mkdir wheels true true (host_fs w) = inr fs'
       /\ Forall (fun p => is_dir fs' p = true) [wheels; build; proj; Root]
       /\ (forall q n, lookup (host_fs w) q = Some n -> lookup fs' q = Some n)
       /\ (is_dir (host_fs w) wheels = true -> fs' = host_fs w)
       /\ copy_out sample_container (Child Root (lit "output")) wheels w
          = checked_run (tar_out sample_container (Child Root (lit "output")))
                        (Some wheels) (set_host_fs fs' w)
       /\ trace (final (copy_out sample_container (Child Root (lit "output"))
                          wheels w))
          = trace w
            ++ [Run (tar_out sample_container (Child Root (lit "output")))
                    true true (Some wheels)].
Proof.
  intros w build wheels.
  split; [exact (project_fs_ok 0 [])|]. split; [reflexivity|].
  exact (copy_out_makes_directory sample_container (Child Root (lit "output"))
           wheels w (project_fs_ok 0 []) eq_refl).
Defined.

(** * More of the protocol *)

(** ** A shell that answers as the script asks *)

(** The end-to-end behaviour of [call] against a well-behaved shell *)
Lemma call_answered (fuel : nat) (args : list arg) (env : list (str * str))
  (capture_output : bool) (cwd : option arg) (w : World)
  (pre rest : list str) (prefix : str) (status : Z) :
  bash_stdout w = pre ++ (prefix ++ footer status (token w)) :: rest ->
  Forall (fun l => is_footer (token w) l = false) pre ->
  (List.length pre < fuel)%nat ->
  0 <= status <= 9999 ->
  call fuel args env capture_output cwd w
  = answered args capture_output status (List.concat pre ++ prefix)
             (set_bash_stdout rest (sent args env cwd w)).
Proof.
  intros Hw Hpre Hfuel Hs.
  destruct (printf_04d_int status Hs) as (Hlen & _ & Hint).
  assert (Hf : is_footer (token w)
                 (prefix ++ printf_04d status ++ token w ++ [newline]) = true).
  { rewrite app_assoc. apply is_footer_intro. }
  rewrite call_unfold.
  rewrite (read_loop_first_footer_aux (token w) _ rest Hf pre
             (sink capture_output) (sent args env cwd w) fuel Hw Hpre Hfuel).
  destruct (footer_line_slices (token w) prefix (printf_04d status) Hlen)
    as [E1 E2].
  rewrite E1, E2, Hint. unfold answered.
  destruct capture_output; simpl; destruct (status =? 0); reflexivity.
Qed.

(** X1: when the shell's answer is some output lines, none of which ends with
    the token, then a line made of more output and the footer that
    [printf "%04d%s\n"] prints for a status in [0, 9999], [call] comes back
    within one turn per line: it returns the output (with capture) or [''] after
    streaming it (without) when the status is 0, and raises
    [CalledProcessError] with the status otherwise. What the shell printed
    after the footer stays in the pipe. *)
Theorem call_protocol (fuel : nat) (args : list arg) (env : list (str * str))
  (capture_output : bool) (cwd : option arg) (w : World)
  (pre rest : list str) (prefix : str) (status : Z) :
  bash_stdout w = pre ++ (prefix ++ footer status (token w)) :: rest ->
  Forall (fun l => is_footer (token w) l = false) pre ->
  (List.length pre < fuel)%nat ->
  0 <= status <= 9999 ->
  call fuel args env capture_output cwd w
  = answered args capture_output status (List.concat pre ++ prefix)
             (set_bash_stdout rest (sent args env cwd w)).
Proof.
  exact (call_answered fuel args env capture_output cwd w pre rest prefix
           status).
Qed.

Lemma call_protocol_witness :
  let w := sample_world [lit "building" ++ [newline];
                         lit "done" ++ footer 2 sample_token;
                         lit "next" ++ [newline]] in
  bash_stdout w
  = [lit "building" ++ [newline]]
    ++ (lit "done" ++ footer 2 (token w)) :: [lit "next" ++ [newline]]
  /\ Forall (fun l => is_footer (token w) l = false)
            [lit "building" ++ [newline]]
  /\ (List.length [lit "building" ++ [newline]] < 2)%nat
  /\ 0 <= 2 <= 9999
  /\ call 2 echo_hello [] true None w
     = Raised (CalledProcessError 2 (Argv echo_hello)
                 (Some (lit "building" ++ [newline] ++ lit "done")))
              (set_bash_stdout [lit "next" ++ [newline]]
                 (sent echo_hello [] None w)).
Proof.
  intros w.
  assert (H1 : Forall (fun l => is_footer (token w) l = false)
                      [lit "building" ++ [newline]])
    by (constructor; [reflexivity | constructor]).
  assert (H2 : (List.length [lit "building" ++ [newline]] < 2)%nat)
    by (simpl; lia).
  assert (H3 : 0 <= 2 <= 9999) by lia.
  split; [reflexivity|]. split; [exact H1|]. split; [exact H2|].
  split; [exact H3|].
  exact (call_protocol 2 echo_hello [] true None w
           [lit "building" ++ [newline]] [lit "next" ++ [newline]]
           (lit "done") 2 eq_refl H1 H2 H3).
Defined.

(** ** A shell that does not *)

(** Lines without footer are consumed one per turn and written out whole *)
Lemma read_loop_no_footer (eom : str) (fuel : nat) :
  forall (io : TextIO) (w : World),
  Forall (fun l => is_footer eom l = false) (bash_stdout w) ->
  exists w', read_loop fuel eom io w = Blocked w'.
Proof.
  induction fuel as [|fuel IH]; intros io w H; [eexists; reflexivity|].
  destruct (bash_stdout w) as [|line rest] eqn:Hw.
  - exists w. apply read_loop_eof. exact Hw.
  - inversion H as [|? ? Hl Hrest]; subst.
    simpl. unfold bind at 1.
    rewrite (loop_body_line eom line rest io w Hw Hl).
    unfold bind at 1, ret.
    destruct io as [value|]; simpl write; cbv iota; apply IH; exact Hrest.
Qed.

(** X2: there is no way out of the read loop but a footer: if no line that
    the shell still prints ends with the token (the shell died, or the
    command closed the output), [call] does not return and does not raise,
    however many turns it is given. *)
Theorem call_blocks_without_footer (fuel : nat) (args : list arg)
  (env : list (str * str)) (capture_output : bool) (cwd : option arg)
  (w : World) :
  Forall (fun l => is_footer (token w) l = false) (bash_stdout w) ->
  exists w', call fuel args env capture_output cwd w = Blocked w'.
Proof.
  intros H. rewrite call_unfold.
  destruct (read_loop_no_footer (token w) fuel (sink capture_output)
              (sent args env cwd w) H) as [w' E].
  rewrite E. exists w'. reflexivity.
Qed.

Lemma call_blocks_without_footer_witness :
  let w := sample_world [lit "hello" ++ [newline]; lit "0000" ++ [newline]] in
  Forall (fun l => is_footer (token w) l = false) (bash_stdout w)
  /\ exists w', call 1000 echo_hello [] false None w = Blocked w'.
Proof.
  intros w.
  assert (H : Forall (fun l => is_footer (token w) l = false) (bash_stdout w))
    by (repeat constructor).
  split; [exact H|].
  exact (call_blocks_without_footer 1000 echo_hello [] false None w H).
Defined.

(** X3: a line that ends with the token but has no number in the four
    characters before it (or fewer than four characters there, in which case
    the slice is empty) makes [call] raise [ValueError], not
    [CalledProcessError]: the text captured so far is lost with the buffer,
    and nothing of that line is written to the sink. *)
Theorem call_malformed_footer (fuel : nat) (args : list arg)
  (env : list (str * str)) (capture_output : bool) (cwd : option arg)
  (w : World) (pre rest : list str) (line : str) :
  bash_stdout w = pre ++ line :: rest ->
  Forall (fun l => is_footer (token w) l = false) pre ->
  is_footer (token w) line = true ->
  (List.length pre < fuel)%nat ->
  (List.length line < 4 + 36 + 1)%nat
  \/ int (slice line (len line - 1 - len (token w) - 4)
                     (len line - 1 - len (token w) - 4 + 4)) = None ->
  exists w',
    call fuel args env capture_output cwd w = Raised ValueError w'
    /\ bash_stdout w' = rest
    /\ sys_stdout w'
       = (sys_stdout w ++ log_line args)
         ++ (if capture_output then [] else List.concat pre).
Proof.
  intros Hw Hpre Hf Hfuel Hbad.
  assert (Hint : int (slice line (len line - 1 - len (token w) - 4)
                                 (len line - 1 - len (token w) - 4 + 4))
                 = None).
  { destruct Hbad as [Hshort|Hnone]; [|exact Hnone].
    rewrite (footer_line_short (token w) line Hf); [reflexivity| |];
      unfold token; rewrite uuid_str_length; lia. }
  rewrite call_unfold.
  rewrite (read_loop_first_footer_aux (token w) line rest Hf pre
             (sink capture_output) (sent args env cwd w) fuel Hw Hpre Hfuel).
  rewrite Hint.
  destruct capture_output; eexists; (split; [reflexivity|]);
    (split; [reflexivity|]); [rewrite app_nil_r|]; reflexivity.
Qed.

Lemma call_malformed_footer_witness :
  let w := sample_world [lit "hello" ++ [newline];
                         lit "7" ++ sample_token ++ [newline]] in
  bash_stdout w
  = [lit "hello" ++ [newline]] ++ (lit "7" ++ sample_token ++ [newline]) :: []
  /\ Forall (fun l => is_footer (token w) l = false)
            [lit "hello" ++ [newline]]
  /\ is_footer (token w) (lit "7" ++ sample_token ++ [newline]) = true
  /\ (List.length [lit "hello" ++ [newline]] < 3)%nat
  /\ (List.length (lit "7" ++ sample_token ++ [newline]) < 4 + 36 + 1)%nat
  /\ exists w',
       call 3 echo_hello [] true None w = Raised ValueError w'
       /\ bash_stdout w' = []
       /\ sys_stdout w' = (sys_stdout w ++ log_line echo_hello) ++ [].
Proof.
  intros w.
  assert (H1 : Forall (fun l => is_footer (token w) l = false)
                      [lit "hello" ++ [newline]])
    by (constructor; [reflexivity | constructor]).
  assert (H2 : (List.length [lit "hello" ++ [newline]] < 3)%nat)
    by (simpl; lia).
  assert (H3 : (List.length (lit "7" ++ sample_token ++ [newline])
                < 4 + 36 + 1)%nat) by (vm_compute; lia).
  split; [reflexivity|]. split; [exact H1|]. split; [reflexivity|].
  split; [exact H2|]. split; [exact H3|].
  exact (call_malformed_footer 3 echo_hello [] true None w
           [lit "hello" ++ [newline]] []
           (lit "7" ++ sample_token ++ [newline])
           eq_refl H1 eq_refl H2 (or_introl H3)).
Defined.

(** ** One call after the other *)

(** X4: two calls in a row each get their own output: when the shell answers
    the first script with [pre1], [p1] and a footer with the first token, and
    the second with [pre2], [p2] and a footer with the second token, the
    first call returns exactly [pre1 ++ p1] and the second exactly
    [pre2 ++ p2]; nothing of one answer shows up in the other. *)
Theorem calls_in_sequence (fuel : nat) (args1 args2 : list arg)
  (env1 env2 : list (str * str)) (cwd1 cwd2 : option arg) (w : World)
  (pre1 pre2 rest : list str) (p1 p2 : str) :
  bash_stdout w
  = pre1 ++ (p1 ++ footer 0 (token w))
      :: pre2 ++ (p2 ++ footer 0 (token (drawn_once w))) :: rest ->
  Forall (fun l => is_footer (token w) l = false) pre1 ->
  Forall (fun l => is_footer (token (drawn_once w)) l = false) pre2 ->
  (List.length pre1 < fuel)%nat ->
  (List.length pre2 < fuel)%nat ->
  exists w',
    bind (call fuel args1 env1 true cwd1)
         (fun out1 =>
            bind (call fuel args2 env2 true cwd2)
                 (fun out2 => ret (out1, out2))) w
    = Returned (List.concat pre1 ++ p1, List.concat pre2 ++ p2) w'
    /\ bash_stdout w' = rest.
Proof.
  intros Hw H1 H2 F1 F2.
  assert (Hs : 0 <= 0 <= 9999) by lia.
  unfold bind at 1.
  rewrite (call_answered fuel args1 env1 true cwd1 w pre1 _ p1 0 Hw H1 F1 Hs).
  unfold answered. simpl Z.eqb. cbv iota.
  set (w1 := set_bash_stdout _ (sent args1 env1 cwd1 w)).
  assert (Ht : token w1 = token (drawn_once w)) by reflexivity.
  unfold bind at 1.
  rewrite (call_answered fuel args2 env2 true cwd2 w1 pre2 rest p2 0);
    [| rewrite Ht; reflexivity | rewrite Ht; exact H2 | exact F2 | exact Hs].
  eexists. split; reflexivity.
Qed.

Lemma calls_in_sequence_witness :
  let t1 := sample_token in
  let t2 := token (drawn_once (sample_world [])) in
  let w := sample_world [lit "one" ++ [newline]; footer 0 t1;
                         lit "two" ++ footer 0 t2] in
  bash_stdout w
  = [lit "one" ++ [newline]] ++ ([] ++ footer 0 (token w))
      :: [] ++ (lit "two" ++ footer 0 (token (drawn_once w))) :: []
  /\ Forall (fun l => is_footer (token w) l = false)
            [lit "one" ++ [newline]]
  /\ Forall (fun l => is_footer (token (drawn_once w)) l = false) []
  /\ (List.length [lit "one" ++ [newline]] < 2)%nat
  /\ (List.length (@nil str) < 2)%nat
  /\ exists w',
       bind (call 2 echo_hello [] true None)
            (fun out1 =>
               bind (call 2 echo_hello [] true None)
                    (fun out2 => ret (out1, out2))) w
       = Returned (List.concat [lit "one" ++ [newline]] ++ [],
                   List.concat [] ++ lit "two") w'
       /\ bash_stdout w' = [].
Proof.
  intros t1 t2 w.
  assert (H1 : Forall (fun l => is_footer (token w) l = false)
                      [lit "one" ++ [newline]])
    by (constructor; [reflexivity | constructor]).
  assert (H2 : Forall (fun l => is_footer (token (drawn_once w)) l = false) [])
    by constructor.
  assert (F1 : (List.length [lit "one" ++ [newline]] < 2)%nat) by (simpl; lia).
  assert (F2 : (List.length (@nil str) < 2)%nat) by (simpl; lia).
  split; [reflexivity|]. split; [exact H1|]. split; [exact H2|].
  split; [exact F1|]. split; [exact F2|].
  exact (calls_in_sequence 2 echo_hello echo_hello [] [] None None w
           [lit "one" ++ [newline]] [] [] [] (lit "two")
           eq_refl H1 H2 F1 F2).
Defined.

(** ** What reaches [sys.stdout] *)

(** A turn of the loop only appends to [sys.stdout], and a buffer shields it *)
Lemma loop_body_stdout (eom : str) (io : TextIO) (w : World) :
  exists out,
    sys_stdout (final (loop_body eom io w)) = sys_stdout w ++ out
    /\ (captured io <> None -> out = [])
    /\ match loop_body eom io w with
       | Returned (inl io') _ => captured io' = None <-> captured io = None
       | _ => True
       end.
Proof.
  unfold loop_body, bind, readline.
  destruct (bash_stdout w) as [|line rest];
    [destruct (endswith [] _)|destruct (endswith line _)];
    try destruct (int _); destruct io as [value|]; simpl;
    try (exists []; rewrite app_nil_r; repeat split; congruence);
    eexists; repeat split; congruence.
Qed.

Lemma read_loop_stdout (eom : str) (fuel : nat) :
  forall (io : TextIO) (w : World),
  exists out,
    sys_stdout (final (read_loop fuel eom io w)) = sys_stdout w ++ out
    /\ (captured io <> None -> out = []).
Proof.
  induction fuel as [|fuel IH]; intros io w.
  - exists []. simpl. rewrite app_nil_r. auto.
  - simpl. unfold bind.
    destruct (loop_body_stdout eom io w) as (out & E & Hc & Hk).
    destruct (loop_body eom io w) as [[io'|done] w1|e w1|w1]; simpl in E;
      try (exists out; split; assumption).
    destruct (IH io' w1) as (out' & E' & Hc').
    exists (out ++ out'). rewrite E', E, app_assoc. split; [reflexivity|].
    intros H. rewrite (Hc H), (Hc' (fun A => H (proj1 Hk A))). reflexivity.
Qed.

(** X5: whatever happens to a call with capture (it returns, it raises, it
    never comes back), [sys.stdout] has received the log line of the command
    and not one character of the shell's output; without capture
    [sys.stdout] is only ever appended to, after that same log line. *)
Theorem call_stdout (fuel : nat) (args : list arg) (env : list (str * str))
  (cwd : option arg) (w : World) :
  sys_stdout (final (call fuel args env true cwd w))
  = sys_stdout w ++ log_line args
  /\ exists out,
       sys_stdout (final (call fuel args env false cwd w))
       = sys_stdout w ++ log_line args ++ out.
Proof.
  rewrite !call_unfold. split.
  - destruct (read_loop_stdout (token w) fuel (sink true)
                (sent args env cwd w)) as (out & E & Hc).
    rewrite (Hc ltac:(discriminate)), app_nil_r in E.
    destruct (read_loop _ _ _ _) as [[returncode io] w1|e w1|w1];
      try destruct (negb (returncode =? 0)); exact E.
  - destruct (read_loop_stdout (token w) fuel (sink false)
                (sent args env cwd w)) as (out & E & _).
    exists out. rewrite app_assoc.
    destruct (read_loop _ _ _ _) as [[returncode io] w1|e w1|w1];
      try destruct (negb (returncode =? 0)); exact E.
Qed.

(** ** Quoting *)

(** A character [quote] leaves alone is no blank, quote or backslash *)
Lemma safe_is_plain (c : ascii) :
  Shlex.is_safe c = true ->
  Shlex.whitespace c = false /\ Shlex.quotes c = false
  /\ Shlex.escape c = false.
Proof.
  intros H.
  assert (P : forall d, Shlex.is_safe d = false -> Ascii.eqb c d = false).
  { intros d Hd. destruct (Ascii.eqb_spec c d) as [->|]; congruence. }
  unfold Shlex.whitespace, Shlex.quotes, Shlex.escape.
  rewrite !P by reflexivity. auto.
Qed.

(** Safe characters are added to the word one by one *)
Lemma read_tokens_safe (s : str) :
  forall token tail,
  forallb Shlex.is_safe s = true ->
  Shlex.read_tokens Shlex.Word token (s ++ tail)
  = Shlex.read_tokens Shlex.Word (token ++ s) tail.
Proof.
  induction s as [|c s IH]; intros token tail H; simpl.
  - rewrite app_nil_r. reflexivity.
  - simpl in H. apply andb_true_iff in H. destruct H as [Hc Hs].
    destruct (safe_is_plain c Hc) as (W & Q & E).
    rewrite W, Q, E, (IH _ _ Hs), <- app_assoc. reflexivity.
Qed.

(** Between single quotes every character is taken as it is, and the
    replacement of a single quote closes the quotes, adds the quote between
    double quotes and opens them again *)
Lemma read_tokens_single_quoted (s : str) :
  forall token tail,
  Shlex.read_tokens (Shlex.Quoted squote) token
    (replace_char squote [squote; dquote; squote; dquote; squote] s ++ tail)
  = Shlex.read_tokens (Shlex.Quoted squote) (token ++ s) tail.
Proof.
  induction s as [|c s IH]; intros token tail.
  - simpl. rewrite app_nil_r. reflexivity.
  - unfold replace_char. simpl flat_map. fold (replace_char squote
      [squote; dquote; squote; dquote; squote] s).
    destruct (Ascii.eqb_spec c squote) as [->|Hc].
    + rewrite <- app_assoc. simpl. rewrite IH, <- app_assoc. reflexivity.
    + rewrite <- app_assoc. simpl.
      destruct (Ascii.eqb_spec c squote) as [|_]; [contradiction|].
      unfold Shlex.escapedquotes. simpl. rewrite andb_false_r.
      rewrite IH, <- app_assoc. reflexivity.
Qed.

(** After a blank, the quoted form of [s] is read as the word [s] *)
Lemma read_tokens_quote (s tail : str) :
  Shlex.read_tokens Shlex.Blank [] (Shlex.quote s ++ tail)
  = Shlex.read_tokens Shlex.Word s tail.
Proof.
  unfold Shlex.quote. destruct s as [|c s]; [reflexivity|].
  destruct (forallb Shlex.is_safe (c :: s)) eqn:Hsafe.
  - simpl in Hsafe. apply andb_true_iff in Hsafe. destruct Hsafe as [Hc Hs].
    destruct (safe_is_plain c Hc) as (W & Q & E).
    simpl. rewrite W, Q, E. apply (read_tokens_safe s [c] tail Hs).
  - rewrite <- !app_assoc.
    change (Shlex.read_tokens Shlex.Blank []
              ([squote] ++ replace_char squote
                 [squote; dquote; squote; dquote; squote] (c :: s)
               ++ [squote] ++ tail))
      with (Shlex.read_tokens (Shlex.Quoted squote) []
              (replace_char squote
                 [squote; dquote; squote; dquote; squote] (c :: s)
               ++ [squote] ++ tail)).
    rewrite read_tokens_single_quoted. reflexivity.
Qed.

Lemma read_tokens_join (l : list str) :
  Shlex.read_tokens Shlex.Blank [] (join (lit " ") (map Shlex.quote l))
  = Some l.
Proof.
  induction l as [|s l IH]; [reflexivity|].
  destruct l as [|s' l].
  - simpl. rewrite <- (app_nil_r (Shlex.quote s)), read_tokens_quote.
    reflexivity.
  - change (join (lit " ") (map Shlex.quote (s :: s' :: l)))
      with (Shlex.quote s
            ++ lit " " ++ join (lit " ") (map Shlex.quote (s' :: l))).
    rewrite read_tokens_quote.
    change (Shlex.read_tokens Shlex.Word s
              (lit " " ++ join (lit " ") (map Shlex.quote (s' :: l))))
      with (option_map (cons s)
              (Shlex.read_tokens Shlex.Blank []
                 (join (lit " ") (map Shlex.quote (s' :: l))))).
    rewrite IH. reflexivity.
Qed.

(** X8: the command text that [call] writes into the script splits, under
    the shell's quoting rules as [shlex] has them, into exactly the
    arguments it was given: no blank, quote, backslash, dollar or newline in
    an argument can break an argument in two or merge two of them. *)
Theorem command_splits_back (args : list arg) :
  Shlex.split (command_of args) = Some (map arg_str args).
Proof.
  unfold Shlex.split, command_of.
  rewrite <- (map_map arg_str Shlex.quote). apply read_tokens_join.
Qed.
